(** * The user-profile dialog: validation, mode machine, sync and mutations

    A shallow embedding of [client/src/components/user-profile-modal.tsx].

    The component is a React function component.  Its state lives in hooks
    ([useState], two [useForm] instances, one [useQuery], two [useMutation]s)
    and is changed by event handlers, by effects whose dependency arrays name
    what re-arms them, and by the callbacks of the mutations.  The embedding
    keeps that shape: one record for the hook state, one function per
    handler, effect and callback, and a [step] function that dispatches the
    events the event loop can deliver.

    Strings are sequences of code units; [String.length] is the [.length] of
    the source.  The value [undefined] of an optional field is [None]. *)

From stdpp Require Import base option list strings gmap.

(** ** JavaScript operators used by the component *)

(** [a || d] on [string | undefined]: the left operand when it is truthy.
    The empty string and [undefined] are the falsy values of that type. *)
Definition js_or (a : option string) (d : string) : string :=
  match a with
  | Some s => if String.eqb s "" then d else s
  | None => d
  end.

(** [a ?? d], the operator the specification words the same defaults with:
    the left operand unless it is [undefined]. *)
Definition nullish (a : option string) (d : string) : string :=
  match a with
  | Some s => s
  | None => d
  end.

(** [path.join(".")] *)
Fixpoint join_path (p : list string) : string :=
  match p with
  | [] => ""
  | [k] => k
  | k :: rest => k +:+ "." +:+ join_path rest
  end.

(** ** The schema combinators of the validation library

    Parsing yields a status and the issues found.  A failed check makes the
    result [dirty] and parsing goes on; a value of the wrong type makes it
    [aborted]. *)

Inductive ParseStatus := valid | dirty | aborted.

Record ZodIssue := mkIssue { issue_path : list string; issue_message : string }.

Definition ParseReturn : Type := ParseStatus * list ZodIssue.

(** A schema parses an input found at a path. *)
Definition Schema (A : Type) : Type := list string -> A -> ParseReturn.

Definition merge_status (a b : ParseStatus) : ParseStatus :=
  match a, b with
  | aborted, _ | _, aborted => aborted
  | dirty, _ | _, dirty => dirty
  | valid, valid => valid
  end.

#[global] Instance ParseStatus_eq_dec : EqDecision ParseStatus.
Proof. solve_decision. Defined.

#[global] Instance ZodIssue_eq_dec : EqDecision ZodIssue.
Proof. solve_decision. Defined.

(** The e-mail grammar of the validation library is not part of the
    component: the development is parametric in it. *)
Class EmailGrammar := { is_email : string -> bool }.

Inductive StringCheck :=
| check_min (n : nat) (msg : string)
| check_email (msg : string).

Definition run_check `{EmailGrammar} (s : string) (c : StringCheck) : option string :=
  match c with
  | check_min n msg => if String.length s <? n then Some msg else None
  | check_email msg => if is_email s then None else Some msg
  end.

(** [z.string()] followed by its checks, in the order they are chained. *)
Definition z_string `{EmailGrammar} (checks : list StringCheck) : Schema (option string) :=
  fun p v =>
    match v with
    | None => (aborted, [mkIssue p "Required"])
    | Some s =>
        let msgs := omap (run_check s) checks in
        (match msgs with [] => valid | _ => dirty end, map (mkIssue p) msgs)
    end.

(** [schema.optional()] *)
Definition optional (inner : Schema (option string)) : Schema (option string) :=
  fun p v =>
    match v with
    | None => (valid, [])
    | Some _ => inner p v
    end.

(** [z.literal(l)] *)
Definition z_literal (l : string) : Schema (option string) :=
  fun p v =>
    match v with
    | Some s => if String.eqb s l then (valid, [])
                else (aborted, [mkIssue p "Invalid literal value"])
    | None => (aborted, [mkIssue p "Invalid literal value"])
    end.

(** [a.or(b)]: the first option that is valid wins; failing that, the first
    dirty one is returned with its issues; failing that, the union is
    invalid. *)
Definition z_or {A} (a b : Schema A) : Schema A :=
  fun p v =>
    let ra := a p v in
    let rb := b p v in
    match fst ra, fst rb with
    | valid, _ => ra
    | _, valid => rb
    | dirty, _ => ra
    | _, dirty => rb
    | _, _ => (aborted, [mkIssue p "Invalid input"])
    end.

(** [z.object({...})]: every key is parsed at the path extended by its name,
    the issues are collected in key order and the statuses merged. *)
Definition z_object {A} (shape : list (string * (A -> option string) * Schema (option string)))
  : Schema A :=
  fun p v =>
    foldl (fun (acc : ParseReturn) '(key, get, sch) =>
             let r := sch (p ++ [key]) (get v) in
             (merge_status (fst acc) (fst r), snd acc ++ snd r))
          (valid, []) shape.

(** [schema.refine(check, {message, path})]: skipped when the inner schema
    aborted, otherwise run on the value even when it is dirty. *)
Definition refine {A} (inner : Schema A) (check : A -> bool)
           (msg : string) (sub : list string) : Schema A :=
  fun p v =>
    let r := inner p v in
    match fst r with
    | aborted => r
    | _ => if check v then r
            else (dirty, snd r ++ [mkIssue (p ++ sub) msg])
    end.

(** [schema.safeParse(v).success] *)
Definition success (r : ParseReturn) : bool :=
  bool_decide (fst r = valid).

(** ** The two forms and their schemas *)

Record ProfileForm := mkProfileForm {
  fullName : option string;
  email : option string;
  mobile : option string
}.

Record PasswordForm := mkPasswordForm {
  currentPassword : string;
  newPassword : string;
  confirmPassword : string
}.

Definition profileSchema `{EmailGrammar} : Schema ProfileForm :=
  z_object
    [ ("fullName", fullName, optional (z_string []));
      ("email", email,
        z_or (optional (z_string [check_email "Invalid email address"]))
             (z_literal ""));
      ("mobile", mobile, optional (z_string [])) ].

Definition passwordSchema `{EmailGrammar} : Schema PasswordForm :=
  refine
    (z_object
       [ ("currentPassword", fun d => Some (currentPassword d),
           z_string [check_min 1 "Current PIN is required"]);
         ("newPassword", fun d => Some (newPassword d),
           z_string [check_min 4 "PIN must be at least 4 characters"]);
         ("confirmPassword", fun d => Some (confirmPassword d),
           z_string [check_min 1 "Confirm PIN is required"]) ])
    (fun data => String.eqb (newPassword data) (confirmPassword data))
    "PINs don't match"
    ["confirmPassword"].

(** ** The resolver and the form hook *)

(** [parseErrorSchema]: the issues become one message per field, keyed by the
    joined path; the first issue of a field is the one kept. *)
Definition parseErrorSchema (issues : list ZodIssue) : gmap string string :=
  foldl (fun (errs : gmap string string) i =>
           let key := join_path (issue_path i) in
           match errs !! key with
           | Some _ => errs
           | None => <[key := issue_message i]> errs
           end)
        ∅ issues.

(** [zodResolver(schema)]: the parsed data, or the field errors. *)
Definition zodResolver {A} (schema : Schema A) (values : A) : A + gmap string string :=
  let r := schema [] values in
  if success r then inl values else inr (parseErrorSchema (snd r)).

(** What [useForm] holds: the field values and the field errors of the last
    submit.  (Validation that is run again while the user types after a
    failed submit only changes the messages shown and is left out.) *)
Record UseForm (A : Type) := mkForm {
  values : A;
  errors : gmap string string
}.
Arguments mkForm {A} _ _.
Arguments values {A} _.
Arguments errors {A} _.

(** [form.reset(v)] *)
Definition reset {A} (v : A) (form : UseForm A) : UseForm A :=
  {| values := v; errors := ∅ |}.

Definition profileDefaults : ProfileForm :=
  {| fullName := Some ""; email := Some ""; mobile := Some "" |}.

Definition passwordDefaults : PasswordForm :=
  {| currentPassword := ""; newPassword := ""; confirmPassword := "" |}.

(** ** The state of the component *)

Inductive ViewMode := view | edit | password.

(** The value of the uncontrolled [Tabs] of the edit surface. *)
Inductive TabsValue := profile_tab | password_tab.

Record User := mkUser { user_id : string; username : string; role : string }.

Record UserProfile := mkUserProfile {
  up_fullName : option string;
  up_email : option string;
  up_mobile : option string;
  up_lastLogin : option string
}.

#[global] Instance UserProfile_eq_dec : EqDecision UserProfile.
Proof. solve_decision. Defined.

Record JsError := mkError { message : string }.

(** A promise once it has settled. *)
Inductive Settled (A : Type) :=
| fulfilled (a : A)
| rejected (e : JsError).
Arguments fulfilled {A} _.
Arguments rejected {A} _.

Inductive MutationStatus := idle | pending | succeeded | failed (msg : string).

Definition isPending (m : MutationStatus) : bool :=
  match m with pending => true | _ => false end.

Inductive ToastVariant := destructive.

Record Toast := mkToast {
  title : string;
  description : option string;
  variant : option ToastVariant
}.

Record ApiRequest := mkRequest {
  method : string;
  url : string;
  body : list (string * string)
}.

(** What the component asks of its collaborators, in the order it asks. *)
Inductive Effect :=
| Notify (t : Toast)                          (* toast(...) *)
| Request (r : ApiRequest)                    (* apiRequest(...) *)
| Invalidate (key : list (option string))     (* queryClient.invalidateQueries *)
| OpenChange (b : bool).                      (* onOpenChange(b) *)

Record State := mkState {
  open : bool;
  user : option User;
  viewMode : ViewMode;
  tab : TabsValue;
  profileForm : UseForm ProfileForm;
  passwordForm : UseForm PasswordForm;
  userProfile : option UserProfile;
  updateProfileMutation : MutationStatus;
  updatePasswordMutation : MutationStatus;
  effects : list Effect
}.

Definition set_open (b : bool) (st : State) : State :=
  mkState b (user st) (viewMode st) (tab st) (profileForm st) (passwordForm st)
          (userProfile st) (updateProfileMutation st) (updatePasswordMutation st)
          (effects st).

Definition set_tab (t : TabsValue) (st : State) : State :=
  mkState (open st) (user st) (viewMode st) t (profileForm st) (passwordForm st)
          (userProfile st) (updateProfileMutation st) (updatePasswordMutation st)
          (effects st).

Definition set_profileForm (f : UseForm ProfileForm) (st : State) : State :=
  mkState (open st) (user st) (viewMode st) (tab st) f (passwordForm st)
          (userProfile st) (updateProfileMutation st) (updatePasswordMutation st)
          (effects st).

Definition set_passwordForm (f : UseForm PasswordForm) (st : State) : State :=
  mkState (open st) (user st) (viewMode st) (tab st) (profileForm st) f
          (userProfile st) (updateProfileMutation st) (updatePasswordMutation st)
          (effects st).

Definition set_userProfile (d : option UserProfile) (st : State) : State :=
  mkState (open st) (user st) (viewMode st) (tab st) (profileForm st) (passwordForm st)
          d (updateProfileMutation st) (updatePasswordMutation st) (effects st).

Definition set_updateProfileMutation (m : MutationStatus) (st : State) : State :=
  mkState (open st) (user st) (viewMode st) (tab st) (profileForm st) (passwordForm st)
          (userProfile st) m (updatePasswordMutation st) (effects st).

Definition set_updatePasswordMutation (m : MutationStatus) (st : State) : State :=
  mkState (open st) (user st) (viewMode st) (tab st) (profileForm st) (passwordForm st)
          (userProfile st) (updateProfileMutation st) m (effects st).

Definition emit (e : Effect) (st : State) : State :=
  mkState (open st) (user st) (viewMode st) (tab st) (profileForm st) (passwordForm st)
          (userProfile st) (updateProfileMutation st) (updatePasswordMutation st)
          (effects st ++ [e]).

(** [setViewMode(v)].  The [Tabs] are mounted only while the mode is not
    [view]; they start on their default value each time they are mounted. *)
Definition setViewMode (v : ViewMode) (st : State) : State :=
  let t := match v, viewMode st with
           | view, _ | _, view => profile_tab
           | _, _ => tab st
           end in
  mkState (open st) (user st) v t (profileForm st) (passwordForm st)
          (userProfile st) (updateProfileMutation st) (updatePasswordMutation st)
          (effects st).

(** The handlers run one call after the other on the state. *)
Definition Action : Type := State -> State.

Definition seq (a b : Action) : Action := fun st => b (a st).
Notation "a >>> b" := (seq a b) (at level 61, left associativity).

Definition toast (t : Toast) : Action := emit (Notify t).

(** The mode of the specification, read off the component state. *)
Inductive Mode := View | EditProfile | EditPin.

Definition mode (st : State) : Mode :=
  match viewMode st with
  | view => View
  | _ => match tab st with
         | profile_tab => EditProfile
         | password_tab => EditPin
         end
  end.

#[global] Instance ViewMode_eq_dec : EqDecision ViewMode.
Proof. solve_decision. Defined.

#[global] Instance TabsValue_eq_dec : EqDecision TabsValue.
Proof. solve_decision. Defined.

(** ** Hooks, effects and handlers, in the order of the source *)

(** The state [useState] and the two [useForm] start from, for the props
    and context the host supplies. *)
Definition initialState (o : bool) (u : option User) (cached : option UserProfile) : State :=
  {| open := o; user := u; viewMode := view; tab := profile_tab;
     profileForm := mkForm profileDefaults ∅;
     passwordForm := mkForm passwordDefaults ∅;
     userProfile := cached;
     updateProfileMutation := idle; updatePasswordMutation := idle;
     effects := [] |}.

(** The text of [user?.id] inside a template literal. *)
Definition userIdText (st : State) : string :=
  match user st with
  | Some u => user_id u
  | None => "undefined"
  end.

(** [queryKey: ["/api/users", user?.id, "profile"]] *)
Definition profileQueryKey (st : State) : list (option string) :=
  [Some "/api/users"; user_id <$> user st; Some "profile"].

(** The effect on [[userProfile, profileForm]]. *)
Definition syncProfileEffect : Action :=
  fun st =>
    match userProfile st with
    | Some p =>
        set_profileForm
          (reset {| fullName := Some (js_or (up_fullName p) "");
                    email := Some (js_or (up_email p) "");
                    mobile := Some (js_or (up_mobile p) "") |}
                 (profileForm st)) st
    | None => st
    end.

(** [passwordForm.reset()]: back to the default values. *)
Definition passwordForm_reset : Action :=
  fun st => set_passwordForm (reset passwordDefaults (passwordForm st)) st.

(** The effect on [[open, passwordForm]]. *)
Definition closeResetEffect : Action :=
  fun st =>
    if open st then st
    else (setViewMode view >>> passwordForm_reset) st.

(** The fields of the validated profile form that are present. *)
Definition profileBody (data : ProfileForm) : list (string * string) :=
  omap (fun '(k, v) => pair k <$> v)
       [("fullName", fullName data); ("email", email data); ("mobile", mobile data)].

Definition updateProfile_mutationFn (st : State) (data : ProfileForm) : ApiRequest :=
  {| method := "PATCH";
     url := "/api/users/" +:+ userIdText st +:+ "/profile";
     body := profileBody data |}.

Definition updateProfile_onSuccess (data : UserProfile) : Action :=
  (fun st => emit (Invalidate (profileQueryKey st)) st) >>>
  (fun st => set_profileForm
               (reset {| fullName := Some (js_or (up_fullName data) "");
                         email := Some (js_or (up_email data) "");
                         mobile := Some (js_or (up_mobile data) "") |}
                      (profileForm st)) st) >>>
  toast {| title := "Profile updated successfully";
           description := None; variant := None |} >>>
  setViewMode view.

Definition updateProfile_onError (error : JsError) : Action :=
  toast {| title := "Error updating profile";
           description := Some (message error);
           variant := Some destructive |}.

Definition updatePassword_mutationFn (st : State) (data : PasswordForm) : ApiRequest :=
  {| method := "PATCH";
     url := "/api/users/" +:+ userIdText st +:+ "/password";
     body := [("currentPin", currentPassword data); ("newPin", newPassword data)] |}.

Definition updatePassword_onSuccess (_ : unit) : Action :=
  toast {| title := "Security PIN updated successfully";
           description := None; variant := None |} >>>
  passwordForm_reset >>>
  setViewMode view.

Definition updatePassword_onError (error : JsError) : Action :=
  toast {| title := "Error updating Security PIN";
           description := Some (message error);
           variant := Some destructive |}.

(** [mutation.mutate(data)]: the mutation becomes pending and its function
    is called. *)
Definition mutate (set_status : MutationStatus -> Action)
           (mutationFn : State -> ApiRequest) : Action :=
  set_status pending >>> (fun st => emit (Request (mutationFn st)) st).

(** The run of a mutation once its function has settled: the callback of
    the outcome, then the status; a rejection is passed on by the run. *)
Definition settle {A} (set_status : MutationStatus -> Action)
           (onSuccess : A -> Action) (onError : JsError -> Action)
           (r : Settled A) (st : State) : State * option JsError :=
  match r with
  | fulfilled a => ((onSuccess a >>> set_status succeeded) st, None)
  | rejected e => ((onError e >>> set_status (failed (message e))) st, Some e)
  end.

(** [mutate] discards the promise of the run with [.catch(noop)]; only
    [mutateAsync], which the component does not call, hands it on. *)
Definition catch_noop (r : State * option JsError) : State * option JsError :=
  (fst r, None).

Definition onProfileSubmit (data : ProfileForm) : Action :=
  mutate set_updateProfileMutation (fun st => updateProfile_mutationFn st data).

Definition onPasswordSubmit (data : PasswordForm) : Action :=
  mutate set_updatePasswordMutation (fun st => updatePassword_mutationFn st data).

(** [form.handleSubmit(onValid)]: the resolver runs first; [onValid] is
    called with the parsed data only when there is no field error. *)
Definition handleSubmit {A} (schema : Schema A) (form : State -> UseForm A)
           (set_form : UseForm A -> Action) (onValid : A -> Action) : Action :=
  fun st =>
    match zodResolver schema (values (form st)) with
    | inl data => onValid data (set_form (mkForm (values (form st)) ∅) st)
    | inr errs => set_form (mkForm (values (form st)) errs) st
    end.

Definition handleClose : Action :=
  emit (OpenChange false) >>> setViewMode view.

(** ** What is rendered *)

Record Button := mkButton { disabled : bool; label : string }.

(** [button-save-profile] *)
Definition saveProfileButton (st : State) : Button :=
  {| disabled := isPending (updateProfileMutation st);
     label := if isPending (updateProfileMutation st)
              then "Saving..." else "Save Changes" |}.

(** [button-update-password] *)
Definition updatePasswordButton (st : State) : Button :=
  {| disabled := isPending (updatePasswordMutation st);
     label := if isPending (updatePasswordMutation st)
              then "Updating..." else "Update PIN" |}.

(** [viewMode === "view" ? renderViewMode() : renderEditMode()], inside a
    dialog that shows its content only while [open]. *)
Definition viewSurface (st : State) : bool :=
  open st && bool_decide (viewMode st = view).

Definition editSurface (st : State) : bool :=
  open st && negb (bool_decide (viewMode st = view)).

Definition profileTabContent (st : State) : bool :=
  editSurface st && bool_decide (tab st = profile_tab).

Definition passwordTabContent (st : State) : bool :=
  editSurface st && bool_decide (tab st = password_tab).

(** A form is submitted through its submit button: a button that is not
    rendered or is disabled submits nothing. *)
Definition submittable (shown : bool) (b : Button) : bool :=
  shown && negb (disabled b).

(** [field.onChange] of the inputs. *)
Definition change_profile (f : ProfileForm -> ProfileForm) : Action :=
  fun st => set_profileForm
              (mkForm (f (values (profileForm st))) (errors (profileForm st))) st.

Definition change_password (f : PasswordForm -> PasswordForm) : Action :=
  fun st => set_passwordForm
              (mkForm (f (values (passwordForm st))) (errors (passwordForm st))) st.

Definition when (c : bool) (a : Action) : Action :=
  fun st => if c then a st else st.

(** ** The events of the component *)

Inductive Event :=
| SetOpen (b : bool)                         (* the host passes a new [open] *)
| DismissDialog                              (* the dialog asks to be closed *)
| ClickCloseProfile                          (* button-close-profile *)
| ClickEditProfile                           (* button-edit-profile *)
| ClickCancelProfile                         (* button-cancel-profile *)
| ClickCancelPassword                        (* button-cancel-password *)
| SelectTab (t : TabsValue)                  (* tab-profile, tab-password *)
| InputFullName (s : string)                 (* input-fullname *)
| InputEmail (s : string)                    (* input-email *)
| InputMobile (s : string)                   (* input-mobile *)
| InputCurrentPassword (s : string)          (* input-current-password *)
| InputNewPassword (s : string)              (* input-new-password *)
| InputConfirmPassword (s : string)          (* input-confirm-password *)
| SubmitProfile                              (* button-save-profile *)
| SubmitPassword                             (* button-update-password *)
| QueryData (d : UserProfile)                (* the profile query has data *)
| UpdateProfileSettled (r : Settled UserProfile)
| UpdatePasswordSettled (r : Settled unit).

(** One turn of the event loop: the handler of the event, followed by the
    effects whose dependencies changed.  A control that is not rendered
    receives nothing.  The profile query may deliver its data at any time (a
    fetch started while the dialog was open can resolve after it closed);
    data equal to what the component holds is the same [userProfile] and
    re-arms no effect.  The second component is the error that leaves the
    component uncaught, if any. *)
Definition dispatch `{EmailGrammar} (ev : Event) (st : State) : State * option JsError :=
  match ev with
  | SetOpen b =>
      (if bool_decide (open st = b) then st
       else closeResetEffect (set_open b st), None)
  | QueryData d =>
      (if bool_decide (userProfile st = Some d) then st
       else syncProfileEffect (set_userProfile (Some d) st), None)
  | DismissDialog =>
      (when (open st) (emit (OpenChange false)) st, None)
  | ClickCloseProfile =>
      (when (viewSurface st) handleClose st, None)
  | ClickEditProfile =>
      (when (viewSurface st) (setViewMode edit) st, None)
  | ClickCancelProfile =>
      (when (profileTabContent st) (setViewMode view) st, None)
  | ClickCancelPassword =>
      (when (passwordTabContent st) (setViewMode view) st, None)
  | SelectTab t =>
      (when (editSurface st) (set_tab t) st, None)
  | InputFullName s =>
      (when (profileTabContent st)
            (change_profile (fun v => mkProfileForm (Some s) (email v) (mobile v))) st,
       None)
  | InputEmail s =>
      (when (profileTabContent st)
            (change_profile (fun v => mkProfileForm (fullName v) (Some s) (mobile v))) st,
       None)
  | InputMobile s =>
      (when (profileTabContent st)
            (change_profile (fun v => mkProfileForm (fullName v) (email v) (Some s))) st,
       None)
  | InputCurrentPassword s =>
      (when (passwordTabContent st)
            (change_password
               (fun v => mkPasswordForm s (newPassword v) (confirmPassword v))) st,
       None)
  | InputNewPassword s =>
      (when (passwordTabContent st)
            (change_password
               (fun v => mkPasswordForm (currentPassword v) s (confirmPassword v))) st,
       None)
  | InputConfirmPassword s =>
      (when (passwordTabContent st)
            (change_password
               (fun v => mkPasswordForm (currentPassword v) (newPassword v) s)) st,
       None)
  | SubmitProfile =>
      (when (submittable (profileTabContent st) (saveProfileButton st))
            (handleSubmit profileSchema profileForm set_profileForm onProfileSubmit) st,
       None)
  | SubmitPassword =>
      (when (submittable (passwordTabContent st) (updatePasswordButton st))
            (handleSubmit passwordSchema passwordForm set_passwordForm onPasswordSubmit) st,
       None)
  | UpdateProfileSettled r =>
      catch_noop (settle set_updateProfileMutation
                         updateProfile_onSuccess updateProfile_onError r st)
  | UpdatePasswordSettled r =>
      catch_noop (settle set_updatePasswordMutation
                         updatePassword_onSuccess updatePassword_onError r st)
  end.

Definition step `{EmailGrammar} (ev : Event) (st : State) : State := fst (dispatch ev st).

Definition uncaught `{EmailGrammar} (ev : Event) (st : State) : option JsError := snd (dispatch ev st).

(** The component after a sequence of events, oldest first. *)
Definition run `{EmailGrammar} (evs : list Event) (st : State) : State :=
  foldl (fun s ev => step ev s) st evs.

(** The state after the first render and its effects. *)
Definition mounted (o : bool) (u : option User) (cached : option UserProfile) : State :=
  closeResetEffect (syncProfileEffect (initialState o u cached)).

(** The dialog is closed and at rest: View mode, default PIN form. *)
Definition closed_at_rest (st : State) : Prop :=
  open st = false
  /\ viewMode st = view
  /\ values (passwordForm st) = passwordDefaults.

(** The events that write the values of the profile form. *)
Definition writes_profile (ev : Event) : bool :=
  match ev with
  | QueryData _ | UpdateProfileSettled (fulfilled _)
  | InputFullName _ | InputEmail _ | InputMobile _ => true
  | _ => false
  end.

(** ** The read-only part of the view surface *)

(** The fields [renderViewMode] reads from the signed-in user and from the
    cached profile record.  (The two company fields read the company of the
    session, which no handler of the component touches; they are left
    out.) *)
Record ViewFields := mkViewFields {
  shown_username : string;
  shown_fullName : string;
  shown_role : string;
  shown_mobile : string;
  shown_email : string;
  shown_lastLogin : string
}.

(** [user?.username || "-"], [userProfile?.fullName || "-"] and so on, and
    [userProfile?.lastLogin || "Current session"]. *)
Definition renderViewFields (st : State) : ViewFields :=
  {| shown_username := js_or (username <$> user st) "-";
     shown_fullName := js_or (userProfile st ≫= up_fullName) "-";
     shown_role := js_or (role <$> user st) "-";
     shown_mobile := js_or (userProfile st ≫= up_mobile) "-";
     shown_email := js_or (userProfile st ≫= up_email) "-";
     shown_lastLogin := js_or (userProfile st ≫= up_lastLogin) "Current session" |}.

Inductive BadgeVariant := badge_default | badge_secondary | badge_outline.

Record Badge := mkBadge { badge_variant : BadgeVariant; badge_text : string }.

(** [getRoleBadge]: the [switch] on the role, [null] by default. *)
Definition getRoleBadge (r : string) : option Badge :=
  if String.eqb r "admin" then Some (mkBadge badge_default "Admin")
  else if String.eqb r "gst" then Some (mkBadge badge_secondary "GST")
  else if String.eqb r "non_gst" then Some (mkBadge badge_outline "Non-GST")
  else None.

(** [{user?.role && getRoleBadge(user.role)}]: nothing for a missing user or
    an empty role. *)
Definition roleBadge (st : State) : option Badge :=
  match user st with
  | Some u => if String.eqb (role u) "" then None else getRoleBadge (role u)
  | None => None
  end.

(** ** Reading the trace *)

(** The addresses of the two mutation functions. *)
Definition profileUrl (st : State) : string :=
  "/api/users/" +:+ userIdText st +:+ "/profile".

Definition passwordUrl (st : State) : string :=
  "/api/users/" +:+ userIdText st +:+ "/password".

Definition is_request_to (u : string) (e : Effect) : bool :=
  match e with
  | Request r => String.eqb (url r) u
  | _ => false
  end.

Fixpoint count {A} (f : A -> bool) (l : list A) : nat :=
  match l with
  | [] => 0
  | x :: rest => (if f x then 1 else 0) + count f rest
  end.

Definition settles_profile (ev : Event) : bool :=
  match ev with UpdateProfileSettled _ => true | _ => false end.

Definition settles_password (ev : Event) : bool :=
  match ev with UpdatePasswordSettled _ => true | _ => false end.

(** The requests of a mutation that are in flight: one while it is pending. *)
Definition in_flight (m : MutationStatus) : nat :=
  if isPending m then 1 else 0.


Definition is_query_data (ev : Event) : bool :=
  match ev with QueryData _ => true | _ => false end.

(** The three fields of the profile form hold strings. *)
Definition fields_present (f : ProfileForm) : Prop :=
  is_Some (fullName f) /\ is_Some (email f) /\ is_Some (mobile f).

(** ** Concrete inputs

    A coarse e-mail grammar (the text holds an at sign) and a few states,
    used where the component is run on concrete inputs. *)

Fixpoint has_at (s : string) : bool :=
  match s with
  | EmptyString => false
  | String c rest => Ascii.eqb c (Ascii.ascii_of_nat 64) || has_at rest
  end.

Definition sample_grammar : EmailGrammar := {| is_email := has_at |}.

Definition jane : User := {| user_id := "7"; username := "jane"; role := "admin" |}.

(** The dialog just opened for [jane], the profile not fetched yet. *)
Definition opened : State := mounted true (Some jane) None.

(** The user went to the edit surface and typed a full name. *)
Definition typing : State :=
  run (H := sample_grammar) [ClickEditProfile; InputFullName "New"] opened.

(** The user went to the PIN tab and filled the form with [cur], [new] and
    [conf]. *)
Definition pin_filled (cur new conf : string) : State :=
  run (H := sample_grammar)
      [ ClickEditProfile; SelectTab password_tab; InputCurrentPassword cur;
        InputNewPassword new; InputConfirmPassword conf ] opened.

(** The user filled the profile form with [mail] as e-mail. *)
Definition mail_filled (mail : string) : State :=
  run (H := sample_grammar)
      [ClickEditProfile; InputFullName "Jane"; InputEmail mail] opened.

(** The edit surface just entered, on its profile tab and on its PIN tab. *)
Definition editing : State :=
  run (H := sample_grammar) [ClickEditProfile] opened.

Definition on_pin_tab : State :=
  run (H := sample_grammar) [ClickEditProfile; SelectTab password_tab] opened.

(** The record [Old] was fetched, then the user typed a new full name. *)
Definition typing_over_old : State :=
  run (H := sample_grammar)
      [ QueryData (mkUserProfile (Some "Old") None None None);
        ClickEditProfile; InputFullName "New" ] opened.

(** * Properties *)

Section Properties.

Context `{grammar : EmailGrammar}.

(** ** Operators and checks *)

(** On [string | undefined] the two defaulting operators agree when the
    default is the empty string. *)
Lemma js_or_nullish (a : option string) : js_or a "" = nullish a "".
Proof.
  destruct a as [s|]; simpl; [|reflexivity].
  destruct (String.eqb_spec s ""); congruence.
Qed.

Lemma length_lt_1 (s : string) : (String.length s <? 1) = true <-> s = "".
Proof. destruct s; simpl; split; intros H; done. Qed.

(** Case analysis on every check a schema runs. *)
Ltac split_checks :=
  repeat match goal with
  | |- context [String.length ?s <? ?n] =>
      let E := fresh "E" in destruct (String.length s <? n) eqn:E
  | |- context [String.eqb ?a ?b] =>
      let E := fresh "E" in destruct (String.eqb a b) eqn:E
  | |- context [is_email ?a] =>
      let E := fresh "E" in destruct (is_email a) eqn:E
  end.

Ltac read_checks :=
  repeat match goal with
  | H : (String.length _ <? 1) = true |- _ => apply length_lt_1 in H
  | H : (String.length _ <? 1) = false |- _ =>
      apply not_true_iff_false in H; rewrite length_lt_1 in H
  | H : (String.length _ <? _) = true |- _ => apply Nat.ltb_lt in H
  | H : (String.length _ <? _) = false |- _ => apply Nat.ltb_ge in H
  | H : String.eqb _ _ = true |- _ => apply String.eqb_eq in H
  | H : String.eqb _ _ = false |- _ => apply String.eqb_neq in H
  end.

(** ** The mutation callbacks *)

(** C1.  When the profile update succeeds, the profile query of the current
    user is invalidated and one success notification is emitted (nothing
    else is asked of the collaborators), the profile form holds the
    confirmed values with the empty string for each absent one, and the
    mode is View. *)
Theorem updateProfile_success (st : State) (data : UserProfile) :
  let st' := step (UpdateProfileSettled (fulfilled data)) st in
  effects st' =
    effects st ++
      [ Invalidate [Some "/api/users"; user_id <$> user st; Some "profile"];
        Notify {| title := "Profile updated successfully";
                  description := None; variant := None |} ]
  /\ values (profileForm st') =
       {| fullName := Some (nullish (up_fullName data) "");
          email := Some (nullish (up_email data) "");
          mobile := Some (nullish (up_mobile data) "") |}
  /\ mode st' = View.
Proof.
  cbv zeta. unfold step, dispatch, catch_noop, settle, updateProfile_onSuccess,
    seq, toast, profileQueryKey. simpl.
  rewrite !js_or_nullish, <- app_assoc. auto.
Qed.

(** C4.  When the profile update fails, one failure notification carrying
    the message of the error is emitted, the profile form and the mode are
    as they were, and no error leaves the component. *)
Theorem updateProfile_failure (st : State) (error : JsError) :
  let st' := step (UpdateProfileSettled (rejected error)) st in
  effects st' =
    effects st ++
      [ Notify {| title := "Error updating profile";
                  description := Some (message error);
                  variant := Some destructive |} ]
  /\ profileForm st' = profileForm st
  /\ mode st' = mode st
  /\ uncaught (UpdateProfileSettled (rejected error)) st = None.
Proof.
  cbv zeta. unfold step, uncaught, dispatch, catch_noop, settle,
    updateProfile_onError, seq, toast. simpl. auto.
Qed.

(** C5.  When the PIN update succeeds, the PIN form is back to three empty
    strings, the mode is View, and one success notification is all that is
    asked of the collaborators: no invalidation of the profile query. *)
Theorem updatePassword_success (st : State) :
  let st' := step (UpdatePasswordSettled (fulfilled tt)) st in
  values (passwordForm st') =
    {| currentPassword := ""; newPassword := ""; confirmPassword := "" |}
  /\ effects st' =
       effects st ++
         [ Notify {| title := "Security PIN updated successfully";
                     description := None; variant := None |} ]
  /\ mode st' = View.
Proof.
  cbv zeta. unfold step, dispatch, catch_noop, settle, updatePassword_onSuccess,
    seq, toast. simpl. auto.
Qed.

(** ** The profile sync effect *)

(** C3.  When the profile query delivers a record that is new to the
    component, the profile form is overwritten with the record's three
    fields, the empty string standing for an absent one, whatever the form
    held before. *)
Theorem profile_sync_overwrites (st : State) (d : UserProfile) :
  userProfile st <> Some d ->
  let st' := step (QueryData d) st in
  values (profileForm st') =
    {| fullName := Some (nullish (up_fullName d) "");
       email := Some (nullish (up_email d) "");
       mobile := Some (nullish (up_mobile d) "") |}
  /\ userProfile st' = Some d.
Proof.
  intros Hnew. cbv zeta. unfold step, dispatch.
  rewrite bool_decide_eq_false_2 by exact Hnew.
  unfold syncProfileEffect. simpl. rewrite !js_or_nullish. auto.
Qed.

(** ** Validation *)

(** C2.  The PIN form passes validation exactly when the current PIN is not
    empty, the new PIN has four characters or more, the confirmation is not
    empty and equals the new PIN.  When the two differ, the mismatch is an
    issue at the path of the confirmation field, no issue sits at the root
    of the form, and the resolver reports an error for that field (the
    mismatch message itself whenever the confirmation is not empty).  A
    submit whose validation fails asks nothing of the collaborators and
    starts no mutation. *)
Theorem passwordSchema_validation (f : PasswordForm) :
  (success (passwordSchema [] f) = true <->
     currentPassword f <> "" /\ 4 <= String.length (newPassword f)
     /\ confirmPassword f <> "" /\ newPassword f = confirmPassword f)
  /\ (newPassword f <> confirmPassword f ->
        mkIssue ["confirmPassword"] "PINs don't match" ∈ snd (passwordSchema [] f)
        /\ (forall i, i ∈ snd (passwordSchema [] f) -> issue_path i <> [])
        /\ exists errs,
             zodResolver passwordSchema f = inr errs
             /\ is_Some (errs !! "confirmPassword")
             /\ errs !! "" = None
             /\ (confirmPassword f <> "" ->
                   errs !! "confirmPassword" = Some "PINs don't match"))
  /\ (forall st, values (passwordForm st) = f ->
        success (passwordSchema [] f) = false ->
        effects (step SubmitPassword st) = effects st
        /\ updatePasswordMutation (step SubmitPassword st) = updatePasswordMutation st).
Proof.
  split; [|split].
  - destruct f as [cur new conf].
    unfold passwordSchema, refine, z_object, z_string, success; simpl.
    split_checks; simpl; rewrite ?bool_decide_eq_true; read_checks.
    all: split; [ try discriminate; intros _ | intros (? & ? & ? & ?) ];
      try done; try lia.
    all: repeat split; try done; lia.
  - intros Hne. destruct f as [cur new conf]. simpl in Hne.
    unfold zodResolver, success, passwordSchema, refine, z_object, z_string; simpl.
    destruct (String.eqb new conf) eqn:Eq;
      [apply String.eqb_eq in Eq; contradiction|].
    split_checks; simpl; read_checks.
    all: split; [set_solver|].
    all: split;
      [intros i Hi; apply list_elem_of_In in Hi; simpl in Hi;
       intuition (subst; discriminate)|].
    all: eexists; split; [reflexivity|].
    all: split; [vm_compute; eauto|].
    all: split; [vm_compute; reflexivity|].
    all: intros Hconf; first [contradiction | vm_compute; reflexivity].
  - intros st Hf Hfail.
    unfold step, dispatch, when, handleSubmit, zodResolver.
    destruct (submittable _ _); [|done].
    rewrite Hf, Hfail. done.
Qed.

(** C7.  The profile form fails validation exactly when its e-mail is
    present, not empty and outside the e-mail grammar; an absent or empty
    e-mail passes whatever the full name and the mobile number are.  A
    submit whose validation fails asks nothing of the collaborators and
    starts no mutation. *)
Theorem profileSchema_validation (f : ProfileForm) :
  (success (profileSchema [] f) = false <->
     exists e, email f = Some e /\ e <> "" /\ is_email e = false)
  /\ (forall name phone,
        success (profileSchema [] (mkProfileForm name None phone)) = true
        /\ success (profileSchema [] (mkProfileForm name (Some "") phone)) = true)
  /\ (forall st, values (profileForm st) = f ->
        success (profileSchema [] f) = false ->
        effects (step SubmitProfile st) = effects st
        /\ updateProfileMutation (step SubmitProfile st) = updateProfileMutation st).
Proof.
  split; [|split].
  - destruct f as [name mail phone].
    unfold profileSchema, z_object, z_or, z_literal, optional, z_string, success.
    destruct name, mail as [e|], phone; simpl.
    all: split_checks; simpl; rewrite ?bool_decide_eq_false; read_checks.
    all: split;
      [ intros H; try (exfalso; apply H; reflexivity); eauto
      | intros (e' & He & Hne & Hbad); simplify_eq; try congruence ].
    all: discriminate.
  - intros name phone.
    unfold profileSchema, z_object, z_or, z_literal, optional, z_string, success.
    destruct name, phone; simpl; split_checks; done.
  - intros st Hf Hfail.
    unfold step, dispatch, when, handleSubmit, zodResolver.
    destruct (submittable _ _); [|done].
    rewrite Hf, Hfail. done.
Qed.

(** ** The PIN request *)

(** C8.  A submit of the PIN form that is shown, not pending and valid asks
    for one request: a PATCH of the password resource of the current user
    whose body has the two keys [currentPin] and [newPin], in that order,
    and no other. *)
Theorem pin_request_payload (st : State) :
  passwordTabContent st = true ->
  isPending (updatePasswordMutation st) = false ->
  success (passwordSchema [] (values (passwordForm st))) = true ->
  let data := values (passwordForm st) in
  let st' := step SubmitPassword st in
  effects st' =
    effects st ++
      [ Request {| method := "PATCH";
                   url := "/api/users/" +:+ userIdText st +:+ "/password";
                   body := [ ("currentPin", currentPassword data);
                             ("newPin", newPassword data) ] |} ]
  /\ updatePasswordMutation st' = pending.
Proof.
  intros Hshown Hidle Hvalid. cbv zeta.
  unfold step, dispatch, when, submittable, updatePasswordButton, handleSubmit,
    zodResolver.
  rewrite Hshown, Hvalid. simpl. rewrite Hidle. simpl. done.
Qed.

(** ** Pending mutations *)

(** C9.  While a mutation is pending its own submit button is disabled and
    shows the in-progress label, and a submit of that form changes nothing:
    no second request.  Each button reads the pending flag of its own
    mutation only, so whatever the status of the other mutation, it is as
    it would be without it. *)
Theorem pending_disables_own_submit (st : State) :
  (isPending (updateProfileMutation st) = true ->
     disabled (saveProfileButton st) = true
     /\ label (saveProfileButton st) = "Saving..."
     /\ step SubmitProfile st = st)
  /\ (isPending (updatePasswordMutation st) = true ->
        disabled (updatePasswordButton st) = true
        /\ label (updatePasswordButton st) = "Updating..."
        /\ step SubmitPassword st = st)
  /\ (forall m, saveProfileButton (set_updatePasswordMutation m st)
                = saveProfileButton st)
  /\ (forall m, updatePasswordButton (set_updateProfileMutation m st)
                = updatePasswordButton st)
  /\ (isPending (updateProfileMutation st) = false ->
        disabled (saveProfileButton st) = false
        /\ label (saveProfileButton st) = "Save Changes")
  /\ (isPending (updatePasswordMutation st) = false ->
        disabled (updatePasswordButton st) = false
        /\ label (updatePasswordButton st) = "Update PIN").
Proof.
  unfold step, dispatch, when, submittable, saveProfileButton, updatePasswordButton.
  simpl. repeat split; try done.
  all: match goal with H : isPending _ = _ |- _ => rewrite H end.
  all: rewrite ?andb_false_r; done.
Qed.

(** ** Closing and re-opening *)

(** Closing an open dialog leaves it at rest. *)
Lemma close_at_rest (st : State) :
  open st = true -> closed_at_rest (step (SetOpen false) st).
Proof.
  intros Hopen. unfold step, dispatch, closed_at_rest.
  rewrite bool_decide_eq_false_2 by (rewrite Hopen; discriminate).
  unfold closeResetEffect. simpl. done.
Qed.

(** A closed dialog at rest stays so until the host opens it: nothing is
    rendered, and what the queries and mutations deliver keeps the mode and
    the PIN form. *)
Lemma closed_at_rest_step (ev : Event) (st : State) :
  ev <> SetOpen true -> closed_at_rest st -> closed_at_rest (step ev st).
Proof.
  intros Hev (Hopen & Hview & Hpin).
  destruct st as [o u vm t pf pw up m1 m2 fx]; simpl in *; subst.
  unfold closed_at_rest, step.
  destruct ev as [[]| | | | | | | | | | | | | | |d|[]|[[]|]]; simpl;
    try done.
  case_bool_decide; done.
Qed.

Lemma closed_at_rest_run (evs : list Event) (st : State) :
  SetOpen true ∉ evs -> closed_at_rest st -> closed_at_rest (run evs st).
Proof.
  revert st. induction evs as [|ev evs IH]; intros st Hnot Hrest; [done|].
  simpl. apply IH.
  - intros Hin. apply Hnot. by right.
  - apply closed_at_rest_step; [|done].
    intros ->. apply Hnot. by left.
Qed.

(** Opening a dialog at rest shows the View mode. *)
Lemma reopen_at_rest (st : State) :
  closed_at_rest st -> mode (step (SetOpen true) st) = View.
Proof.
  intros (Hopen & Hview & _). unfold step, dispatch.
  rewrite bool_decide_eq_false_2 by (rewrite Hopen; discriminate).
  unfold closeResetEffect, mode. simpl. by rewrite Hview.
Qed.

(** C6.  Closing the dialog, from any mode, form contents and mutation
    status, puts the mode to View and the PIN form to three empty strings;
    whatever arrives while it stays closed, the PIN form remains empty and
    the dialog re-opens in View; a successful PIN update empties the PIN
    form as well. *)
Theorem close_resets_mode_and_pin (st : State) (later : list Event) :
  open st = true ->
  SetOpen true ∉ later ->
  let closed := step (SetOpen false) st in
  mode closed = View
  /\ values (passwordForm closed) =
       {| currentPassword := ""; newPassword := ""; confirmPassword := "" |}
  /\ values (passwordForm (run later closed)) =
       {| currentPassword := ""; newPassword := ""; confirmPassword := "" |}
  /\ mode (step (SetOpen true) (run later closed)) = View
  /\ values (passwordForm (step (UpdatePasswordSettled (fulfilled tt)) st)) =
       {| currentPassword := ""; newPassword := ""; confirmPassword := "" |}.
Proof.
  intros Hopen Hlater. cbv zeta.
  pose proof (close_at_rest st Hopen) as Hrest.
  pose proof (closed_at_rest_run later _ Hlater Hrest) as Hrun.
  destruct Hrest as (_ & Hview & Hpin).
  repeat split.
  - unfold mode. by rewrite Hview.
  - exact Hpin.
  - by destruct Hrun as (_ & _ & ?).
  - by apply reopen_at_rest.
Qed.

(** The profile form changes only through the events that write it. *)
Lemma profile_values_frame (ev : Event) (st : State) :
  writes_profile ev = false ->
  values (profileForm (step ev st)) = values (profileForm st).
Proof.
  intros Hev. unfold step.
  destruct ev as [b| | | | | | | | | | | | | | |d|[]|[[]|]]; simpl in *;
    try discriminate; unfold when, closeResetEffect; simpl;
    repeat match goal with
           | |- context [if ?c then _ else _] => destruct c
           end; try done.
  all: unfold handleSubmit;
    repeat match goal with
           | |- context [match ?c with _ => _ end] => destruct c
           end; done.
Qed.

Lemma profile_values_frame_run (evs : list Event) (st : State) :
  (forall ev, ev ∈ evs -> writes_profile ev = false) ->
  values (profileForm (run evs st)) = values (profileForm st).
Proof.
  revert st. induction evs as [|ev evs IH]; intros st Hevs; [done|].
  simpl. rewrite IH.
  - apply profile_values_frame, Hevs. by left.
  - intros ev' Hin. apply Hevs. by right.
Qed.

(** C10.  Closing the dialog, by the host or through the Close button or a
    dismissal, leaves the profile form as it is, and so does opening it
    again: the edits are still there after a close and a re-open, and they
    stay through every later event that is not a write of the profile form
    (typing, a new record from the query, a successful profile update). *)
Theorem close_keeps_profile_form (st : State) (b : bool) (later : list Event) :
  profileForm (step (SetOpen b) st) = profileForm st
  /\ profileForm (step ClickCloseProfile st) = profileForm st
  /\ profileForm (step DismissDialog st) = profileForm st
  /\ profileForm (run [ClickCloseProfile; SetOpen false; SetOpen true] st)
     = profileForm st
  /\ ((forall ev, ev ∈ later -> writes_profile ev = false) ->
      values (profileForm
                (run ([ClickCloseProfile; SetOpen false; SetOpen true] ++ later) st))
      = values (profileForm st)).
Proof.
  assert (Hset : forall c s, profileForm (step (SetOpen c) s) = profileForm s).
  { intros c s. unfold step, dispatch, closeResetEffect. simpl.
    case_bool_decide; [done|]. simpl. by destruct c. }
  assert (Hclick : forall s, profileForm (step ClickCloseProfile s) = profileForm s).
  { intros s. unfold step, dispatch, when. simpl. by destruct (viewSurface s). }
  repeat split.
  - apply Hset.
  - apply Hclick.
  - unfold step, dispatch, when. simpl. by destruct (open st).
  - unfold run. simpl. by rewrite !Hset, Hclick.
  - intros Hlater. apply profile_values_frame_run.
    intros ev Hin. apply elem_of_app in Hin as [Hin|Hin]; [|by apply Hlater].
    rewrite !elem_of_cons, elem_of_nil in Hin.
    by destruct Hin as [->|[->|[->|[]]]].
Qed.

(** The record the component already holds re-arms nothing. *)
Lemma profile_sync_same_record (st : State) (d : UserProfile) :
  userProfile st = Some d -> step (QueryData d) st = st.
Proof.
  intros Hsame. unfold step, dispatch.
  by rewrite bool_decide_eq_true_2.
Qed.

End Properties.

(** * Further properties of the component *)

Section Coverage.

Context `{grammar : EmailGrammar}.

(** ** What no event changes *)

Lemma user_step (ev : Event) (st : State) : user (step ev st) = user st.
Proof.
  unfold step.
  destruct ev as [b| | | | | | | | | | | | | | |d|[]|[[]|]]; simpl;
    unfold when, closeResetEffect, syncProfileEffect, handleSubmit; simpl;
    repeat match goal with
           | |- context [if ?c then _ else _] => destruct c; simpl
           | |- context [match ?c with _ => _ end] => destruct c; simpl
           end; done.
Qed.

Lemma open_step (ev : Event) (st : State) :
  (forall b, ev <> SetOpen b) -> open (step ev st) = open st.
Proof.
  intros Hev. unfold step.
  destruct ev as [b| | | | | | | | | | | | | | |d|[]|[[]|]]; simpl;
    [by destruct (Hev b)|..];
    unfold when, syncProfileEffect, handleSubmit; simpl;
    repeat match goal with
           | |- context [if ?c then _ else _] => destruct c eqn:?; simpl
           | |- context [match ?c with _ => _ end] => destruct c eqn:?; simpl
           end; done.
Qed.

(** An invariant of every step holds after every run. *)
Lemma run_invariant (P : State -> Prop) (evs : list Event) (st : State) :
  (forall ev s, P s -> P (step ev s)) -> P st -> P (run evs st).
Proof.
  intros Hstep. revert st.
  induction evs as [|ev evs IH]; intros st Hst; [done|].
  simpl. apply IH, Hstep, Hst.
Qed.

Lemma run_app (evs1 evs2 : list Event) (st : State) :
  run (evs1 ++ evs2) st = run evs2 (run evs1 st).
Proof. unfold run. apply foldl_app. Qed.

(** ** The failure of the PIN update *)

(** X1.  When the PIN update fails, one failure notification carrying the
    message of the error is emitted; the PIN form keeps what was typed, the
    mode and the profile form are as they were, the submit button is enabled
    again, and no error leaves the component. *)
Theorem updatePassword_failure (st : State) (error : JsError) :
  let st' := step (UpdatePasswordSettled (rejected error)) st in
  effects st' =
    effects st ++
      [ Notify {| title := "Error updating Security PIN";
                  description := Some (message error);
                  variant := Some destructive |} ]
  /\ passwordForm st' = passwordForm st
  /\ profileForm st' = profileForm st
  /\ mode st' = mode st
  /\ disabled (updatePasswordButton st') = false
  /\ uncaught (UpdatePasswordSettled (rejected error)) st = None.
Proof.
  cbv zeta. unfold step, uncaught, dispatch, catch_noop, settle,
    updatePassword_onError, seq, toast. simpl. auto 10.
Qed.

(** ** The two pipelines *)

(** X2.  Neither pipeline touches the other: the outcome of a profile update
    and a submit of the profile form leave the PIN form and the status of
    the PIN update as they are, and the outcome of a PIN update and a submit
    of the PIN form leave the profile form, the status of the profile update
    and the cached record as they are. *)
Theorem pipelines_independent (st : State)
        (rp : Settled UserProfile) (rq : Settled unit) :
  (passwordForm (step (UpdateProfileSettled rp) st) = passwordForm st
   /\ updatePasswordMutation (step (UpdateProfileSettled rp) st)
      = updatePasswordMutation st
   /\ passwordForm (step SubmitProfile st) = passwordForm st
   /\ updatePasswordMutation (step SubmitProfile st) = updatePasswordMutation st)
  /\ (profileForm (step (UpdatePasswordSettled rq) st) = profileForm st
      /\ updateProfileMutation (step (UpdatePasswordSettled rq) st)
         = updateProfileMutation st
      /\ userProfile (step (UpdatePasswordSettled rq) st) = userProfile st
      /\ profileForm (step SubmitPassword st) = profileForm st
      /\ updateProfileMutation (step SubmitPassword st) = updateProfileMutation st).
Proof.
  unfold step, dispatch, catch_noop, settle, when, handleSubmit.
  destruct rp, rq as [[]|]; simpl;
    repeat match goal with
           | |- context [if ?c then _ else _] => destruct c; simpl
           | |- context [match ?c with _ => _ end] => destruct c; simpl
           end; auto 10.
Qed.

(** ** The profile request *)

Lemma profileSchema_ok (name mail phone : string) :
  mail = "" \/ is_email mail = true ->
  success (profileSchema [] (mkProfileForm (Some name) (Some mail) (Some phone))) = true.
Proof.
  intros Hmail.
  unfold profileSchema, z_object, z_or, z_literal, optional, z_string, success.
  simpl. destruct (is_email mail) eqn:Egrammar; simpl; [done|].
  destruct Hmail as [->|]; [done|congruence].
Qed.

Lemma profile_submit_sends (st : State) (name mail phone : string) :
  profileTabContent st = true ->
  isPending (updateProfileMutation st) = false ->
  values (profileForm st) = mkProfileForm (Some name) (Some mail) (Some phone) ->
  mail = "" \/ is_email mail = true ->
  step SubmitProfile st =
    onProfileSubmit (mkProfileForm (Some name) (Some mail) (Some phone))
      (set_profileForm
         (mkForm (mkProfileForm (Some name) (Some mail) (Some phone)) ∅) st).
Proof.
  intros Hshown Hidle Hvalues Hmail.
  unfold step, dispatch, when, submittable, saveProfileButton, handleSubmit,
    zodResolver.
  rewrite Hshown, Hvalues, (profileSchema_ok _ _ _ Hmail). simpl.
  by rewrite Hidle.
Qed.

Lemma password_submit_sends (st : State) :
  passwordTabContent st = true ->
  isPending (updatePasswordMutation st) = false ->
  success (passwordSchema [] (values (passwordForm st))) = true ->
  step SubmitPassword st =
    onPasswordSubmit (values (passwordForm st))
      (set_passwordForm (mkForm (values (passwordForm st)) ∅) st).
Proof.
  intros Hshown Hidle Hvalid.
  unfold step, dispatch, when, submittable, updatePasswordButton, handleSubmit,
    zodResolver.
  rewrite Hshown, Hvalid. simpl. by rewrite Hidle.
Qed.

(** X3.  A submit of the profile form that is shown, not pending and whose
    e-mail is empty or in the grammar asks for one request: a PATCH of the
    profile resource of the current user whose body is the three fields of
    the form, in the order full name, e-mail, mobile.  The mutation becomes
    pending; the form and the mode stay as they are while it is. *)
Theorem profile_request_payload (st : State) (name mail phone : string) :
  profileTabContent st = true ->
  isPending (updateProfileMutation st) = false ->
  values (profileForm st) = mkProfileForm (Some name) (Some mail) (Some phone) ->
  mail = "" \/ is_email mail = true ->
  let st' := step SubmitProfile st in
  effects st' =
    effects st ++
      [ Request {| method := "PATCH";
                   url := "/api/users/" +:+ userIdText st +:+ "/profile";
                   body := [ ("fullName", name); ("email", mail);
                             ("mobile", phone) ] |} ]
  /\ updateProfileMutation st' = pending
  /\ values (profileForm st') = values (profileForm st)
  /\ mode st' = mode st.
Proof.
  intros Hshown Hidle Hvalues Hmail. cbv zeta.
  rewrite (profile_submit_sends st name mail phone) by done.
  rewrite Hvalues. done.
Qed.

(** ** Invariants of the reachable states *)

Lemma fields_present_step (ev : Event) (st : State) :
  fields_present (values (profileForm st)) ->
  fields_present (values (profileForm (step ev st))).
Proof.
  intros (Hname & Hmail & Hphone). unfold step, fields_present.
  destruct ev as [b| | | | | | | | | | | | | | |d|[]|[[]|]]; simpl;
    unfold when, closeResetEffect, syncProfileEffect, handleSubmit; simpl;
    repeat match goal with
           | |- context [if ?c then _ else _] => destruct c eqn:?; simpl
           | |- context [match ?c with _ => _ end] => destruct c eqn:?; simpl
           end; eauto.
Qed.

(** X4.  In every state the component reaches from its first render, the
    three fields of the profile form hold strings: the defaults, the
    defaulted fields of a record, or what was typed; none is ever
    undefined. *)
Theorem profile_fields_always_present
        (o : bool) (u : option User) (cached : option UserProfile)
        (evs : list Event) :
  fields_present (values (profileForm (run evs (mounted o u cached)))).
Proof.
  apply (run_invariant (fun s => fields_present (values (profileForm s)))).
  - intros ev s. apply fields_present_step.
  - unfold mounted, closeResetEffect, syncProfileEffect, fields_present.
    destruct cached, o; simpl; eauto.
Qed.

(** X5.  The view mode is never the value [password] of its type: every
    reachable state has it at [view] or at [edit], and the PIN form is
    reached through the tabs of the edit surface only. *)
Theorem viewMode_never_password
        (o : bool) (u : option User) (cached : option UserProfile)
        (evs : list Event) :
  let st := run evs (mounted o u cached) in
  viewMode st <> password
  /\ (mode st = EditPin <-> viewMode st = edit /\ tab st = password_tab).
Proof.
  cbv zeta.
  assert (Hinv : viewMode (run evs (mounted o u cached)) <> password).
  { apply (run_invariant (fun s => viewMode s <> password)).
    - intros ev s Hs. unfold step.
      destruct ev as [b| | | | | | | | | | | | | | |d|[]|[[]|]]; simpl;
        unfold when, closeResetEffect, syncProfileEffect, handleSubmit; simpl;
        repeat match goal with
               | |- context [if ?c then _ else _] => destruct c eqn:?; simpl
               | |- context [match ?c with _ => _ end] => destruct c eqn:?; simpl
               end; done.
    - unfold mounted, closeResetEffect, syncProfileEffect.
      destruct cached, o; simpl; done. }
  split; [exact Hinv|].
  unfold mode.
  destruct (viewMode _), (tab _); split; try done; intros []; done.
Qed.

(** X6.  In every state the component reaches from its first render, a
    closed dialog is in View with an empty PIN form: whatever the session
    before, the dialog opens in View. *)
Theorem closed_dialog_at_rest
        (o : bool) (u : option User) (cached : option UserProfile)
        (evs : list Event) :
  let st := run evs (mounted o u cached) in
  open st = false ->
  mode st = View
  /\ values (passwordForm st) =
       {| currentPassword := ""; newPassword := ""; confirmPassword := "" |}
  /\ mode (step (SetOpen true) st) = View.
Proof.
  cbv zeta.
  assert (Hinv : open (run evs (mounted o u cached)) = false ->
                 closed_at_rest (run evs (mounted o u cached))).
  { apply (run_invariant (fun s => open s = false -> closed_at_rest s)).
    - intros ev s Hs Hclosed.
      destruct (open s) eqn:Hopen.
      + destruct ev as [[]| | | | | | | | | | | | | | |d|rp|rq];
          try (rewrite open_step in Hclosed by (intros b; discriminate);
               congruence).
        * revert Hclosed. unfold step, dispatch.
          rewrite bool_decide_eq_true_2 by done. simpl. congruence.
        * by apply close_at_rest.
      + destruct ev as [[]| | | | | | | | | | | | | | |d|rp|rq];
          try (apply closed_at_rest_step; [discriminate|by apply Hs]).
        revert Hclosed. unfold step, dispatch.
        rewrite bool_decide_eq_false_2 by (rewrite Hopen; discriminate).
        unfold closeResetEffect. simpl. done.
    - unfold mounted, closeResetEffect, syncProfileEffect, closed_at_rest.
      destruct cached, o; simpl; done. }
  intros Hclosed. destruct (Hinv Hclosed) as (Ho & Hview & Hpin).
  repeat split.
  - unfold mode. by rewrite Hview.
  - exact Hpin.
  - by apply reopen_at_rest.
Qed.


(** ** Requests in flight *)

Lemma count_snoc {A} (f : A -> bool) (l : list A) (x : A) :
  count f (l ++ [x]) = count f l + (if f x then 1 else 0).
Proof. induction l as [|y l IH]; simpl; [lia|]. rewrite IH. lia. Qed.

Lemma string_app_inv_head (s a b : string) : s +:+ a = s +:+ b -> a = b.
Proof. induction s as [|c s IH]; simpl; [done|]. intros [= Heq]. by apply IH. Qed.

Lemma profileUrl_not_passwordUrl (st : State) : profileUrl st <> passwordUrl st.
Proof.
  unfold profileUrl, passwordUrl. intros Heq.
  apply string_app_inv_head, string_app_inv_head in Heq. discriminate.
Qed.

Lemma request_to_password (st st' : State) (data : PasswordForm) :
  user st' = user st ->
  is_request_to (passwordUrl st) (Request (updatePassword_mutationFn st' data)) = true
  /\ is_request_to (profileUrl st) (Request (updatePassword_mutationFn st' data)) = false.
Proof.
  intros Huser.
  assert (Hurl : url (updatePassword_mutationFn st' data) = passwordUrl st).
  { unfold updatePassword_mutationFn, passwordUrl, userIdText. simpl. by rewrite Huser. }
  unfold is_request_to. rewrite Hurl. split.
  - apply String.eqb_refl.
  - apply String.eqb_neq. intros Heq. by apply (profileUrl_not_passwordUrl st).
Qed.

Lemma request_to_profile (st st' : State) (data : ProfileForm) :
  user st' = user st ->
  is_request_to (profileUrl st) (Request (updateProfile_mutationFn st' data)) = true
  /\ is_request_to (passwordUrl st) (Request (updateProfile_mutationFn st' data)) = false.
Proof.
  intros Huser.
  assert (Hurl : url (updateProfile_mutationFn st' data) = profileUrl st).
  { unfold updateProfile_mutationFn, profileUrl, userIdText. simpl. by rewrite Huser. }
  unfold is_request_to. rewrite Hurl. split.
  - apply String.eqb_refl.
  - apply String.eqb_neq. apply profileUrl_not_passwordUrl.
Qed.

(** One step of the PIN pipeline: a request is issued only from a status
    that is not pending, and an outcome frees the pipeline. *)
Lemma password_in_flight_step (ev : Event) (st : State) (u : string) :
  passwordUrl st = u ->
  count (is_request_to u) (effects (step ev st))
    + in_flight (updatePasswordMutation st)
  <= count (is_request_to u) (effects st)
     + in_flight (updatePasswordMutation (step ev st))
     + (if settles_password ev then 1 else 0).
Proof.
  intros <-. unfold step, in_flight.
  destruct ev as [b| | | | | | | | | | | | | | |d|[]|[[]|]];
    cbn -[updatePassword_mutationFn updateProfile_mutationFn passwordUrl
          is_request_to];
    unfold when, submittable, closeResetEffect, syncProfileEffect,
      handleSubmit, handleClose, seq;
    cbn -[updatePassword_mutationFn updateProfile_mutationFn passwordUrl
          is_request_to];
    repeat match goal with
           | |- context [if ?c then _ else _] =>
               lazymatch c with
               | is_request_to _ _ => fail
               | _ => destruct c eqn:?
               end;
               cbn -[updatePassword_mutationFn updateProfile_mutationFn
                     passwordUrl is_request_to] in *
           | |- context [match ?c with _ => _ end] =>
               lazymatch c with
               | is_request_to _ _ => fail
               | _ => destruct c eqn:?
               end;
               cbn -[updatePassword_mutationFn updateProfile_mutationFn
                     passwordUrl is_request_to] in *
           end;
    rewrite ?count_snoc;
    repeat match goal with
           | |- context [is_request_to _ (Request (updatePassword_mutationFn ?s ?d))] =>
               rewrite (proj1 (request_to_password st s d eq_refl))
           | |- context [is_request_to _ (Request (updateProfile_mutationFn ?s ?d))] =>
               rewrite (proj2 (request_to_profile st s d eq_refl))
           end;
    cbn -[passwordUrl]; first [lia | congruence].
Qed.

(** The same for the profile pipeline. *)
Lemma profile_in_flight_step (ev : Event) (st : State) (u : string) :
  profileUrl st = u ->
  count (is_request_to u) (effects (step ev st))
    + in_flight (updateProfileMutation st)
  <= count (is_request_to u) (effects st)
     + in_flight (updateProfileMutation (step ev st))
     + (if settles_profile ev then 1 else 0).
Proof.
  intros <-. unfold step, in_flight.
  destruct ev as [b| | | | | | | | | | | | | | |d|[]|[[]|]];
    cbn -[updatePassword_mutationFn updateProfile_mutationFn profileUrl
          is_request_to];
    unfold when, submittable, closeResetEffect, syncProfileEffect,
      handleSubmit, handleClose, seq;
    cbn -[updatePassword_mutationFn updateProfile_mutationFn profileUrl
          is_request_to];
    repeat match goal with
           | |- context [if ?c then _ else _] =>
               lazymatch c with
               | is_request_to _ _ => fail
               | _ => destruct c eqn:?
               end;
               cbn -[updatePassword_mutationFn updateProfile_mutationFn
                     profileUrl is_request_to] in *
           | |- context [match ?c with _ => _ end] =>
               lazymatch c with
               | is_request_to _ _ => fail
               | _ => destruct c eqn:?
               end;
               cbn -[updatePassword_mutationFn updateProfile_mutationFn
                     profileUrl is_request_to] in *
           end;
    rewrite ?count_snoc;
    repeat match goal with
           | |- context [is_request_to _ (Request (updatePassword_mutationFn ?s ?d))] =>
               rewrite (proj2 (request_to_password st s d eq_refl))
           | |- context [is_request_to _ (Request (updateProfile_mutationFn ?s ?d))] =>
               rewrite (proj1 (request_to_profile st s d eq_refl))
           end;
    cbn -[profileUrl]; first [lia | congruence].
Qed.

Lemma urls_step (ev : Event) (st : State) :
  profileUrl (step ev st) = profileUrl st
  /\ passwordUrl (step ev st) = passwordUrl st.
Proof. unfold profileUrl, passwordUrl, userIdText. by rewrite user_step. Qed.

Lemma password_in_flight_run (evs : list Event) (st : State) (u : string) :
  passwordUrl st = u ->
  count (is_request_to u) (effects (run evs st))
    + in_flight (updatePasswordMutation st)
  <= count (is_request_to u) (effects st)
     + in_flight (updatePasswordMutation (run evs st))
     + count settles_password evs.
Proof.
  revert st. induction evs as [|ev evs IH]; intros st Hu; simpl; [lia|].
  pose proof (password_in_flight_step ev st u Hu) as Hstep.
  pose proof (IH (step ev st)) as Hrest.
  rewrite (proj2 (urls_step ev st)) in Hrest.
  specialize (Hrest Hu). lia.
Qed.

Lemma profile_in_flight_run (evs : list Event) (st : State) (u : string) :
  profileUrl st = u ->
  count (is_request_to u) (effects (run evs st))
    + in_flight (updateProfileMutation st)
  <= count (is_request_to u) (effects st)
     + in_flight (updateProfileMutation (run evs st))
     + count settles_profile evs.
Proof.
  revert st. induction evs as [|ev evs IH]; intros st Hu; simpl; [lia|].
  pose proof (profile_in_flight_step ev st u Hu) as Hstep.
  pose proof (IH (step ev st)) as Hrest.
  rewrite (proj1 (urls_step ev st)) in Hrest.
  specialize (Hrest Hu). lia.
Qed.

Lemma urls_run (evs : list Event) (st : State) :
  profileUrl (run evs st) = profileUrl st
  /\ passwordUrl (run evs st) = passwordUrl st.
Proof.
  revert st. induction evs as [|ev evs IH]; intros st; simpl; [done|].
  destruct (IH (step ev st)) as [-> ->]. apply urls_step.
Qed.

(** X8.  In every run of the component from its first render, each
    pipeline has issued at most as many requests as it has had outcomes,
    plus the one in flight while its mutation is pending: never two requests
    of one pipeline in flight, however the events interleave. *)
Theorem one_request_in_flight
        (o : bool) (u : option User) (cached : option UserProfile)
        (evs : list Event) :
  let st := run evs (mounted o u cached) in
  count (is_request_to (profileUrl st)) (effects st)
    <= count settles_profile evs + in_flight (updateProfileMutation st)
  /\ count (is_request_to (passwordUrl st)) (effects st)
       <= count settles_password evs + in_flight (updatePasswordMutation st)
  /\ in_flight (updateProfileMutation st) <= 1
  /\ in_flight (updatePasswordMutation st) <= 1.
Proof.
  cbv zeta. destruct (urls_run evs (mounted o u cached)) as [-> ->].
  pose proof (profile_in_flight_run evs (mounted o u cached) _ eq_refl) as Hp.
  pose proof (password_in_flight_run evs (mounted o u cached) _ eq_refl) as Hq.
  assert (Hstart : effects (mounted o u cached) = []
                   /\ updateProfileMutation (mounted o u cached) = idle
                   /\ updatePasswordMutation (mounted o u cached) = idle).
  { unfold mounted, closeResetEffect, syncProfileEffect.
    destruct cached, o; simpl; done. }
  destruct Hstart as (He & Hmp & Hmq).
  rewrite He, Hmp in Hp. rewrite He, Hmq in Hq.
  unfold in_flight in *. simpl in Hp, Hq.
  repeat split; try lia.
  all: match goal with |- (if ?c then _ else _) <= _ => destruct c; lia end.
Qed.

(** ** Cancel *)

(** X9.  A Cancel button goes back to View and does nothing else: both
    forms keep their values and nothing is asked of the collaborators.  The
    next Edit lands on the profile tab, and the PIN tab, once selected
    again, still holds the PINs that were typed before the Cancel. *)
Theorem cancel_keeps_forms (st : State) (ev : Event) :
  (ev = ClickCancelProfile /\ profileTabContent st = true)
  \/ (ev = ClickCancelPassword /\ passwordTabContent st = true) ->
  let st' := step ev st in
  mode st' = View
  /\ profileForm st' = profileForm st
  /\ passwordForm st' = passwordForm st
  /\ effects st' = effects st
  /\ mode (step ClickEditProfile st') = EditProfile
  /\ mode (run [ClickEditProfile; SelectTab password_tab] st') = EditPin
  /\ passwordForm (run [ClickEditProfile; SelectTab password_tab] st')
     = passwordForm st.
Proof.
  intros Hev. cbv zeta.
  destruct st as [o u vm t pf pw up m1 m2 fx].
  destruct Hev as [[-> Hshown]|[-> Hshown]];
    unfold profileTabContent, passwordTabContent, editSurface in Hshown;
    simpl in Hshown;
    destruct o, vm, t; try discriminate; simpl in *; done.
Qed.

(** ** Field errors *)

Lemma password_field_errors (f : PasswordForm) :
  parseErrorSchema (snd (passwordSchema [] f)) =
    (if String.eqb (currentPassword f) ""
     then {["currentPassword" := "Current PIN is required"]} else ∅)
    ∪ (if String.length (newPassword f) <? 4
       then {["newPassword" := "PIN must be at least 4 characters"]} else ∅)
    ∪ (if String.eqb (confirmPassword f) ""
       then {["confirmPassword" := "Confirm PIN is required"]}
       else if String.eqb (newPassword f) (confirmPassword f) then ∅
            else {["confirmPassword" := "PINs don't match"]}).
Proof.
  destruct f as [cur new conf].
  unfold passwordSchema, refine, z_object, z_string. simpl.
  destruct (String.length new <? 4), (String.eqb new conf),
    cur as [|c1 cur], conf as [|c2 conf]; simpl; reflexivity.
Qed.

(** X10.  A submit of the PIN form that fails validation stores one message
    per failing field and keeps what was typed: the current PIN is required
    when empty, the new PIN must have four characters, and the confirmation
    shows that it is required when empty and that the PINs do not match
    only when it is not empty. *)
Theorem pin_field_errors (st : State) :
  passwordTabContent st = true ->
  isPending (updatePasswordMutation st) = false ->
  success (passwordSchema [] (values (passwordForm st))) = false ->
  let f := values (passwordForm st) in
  let st' := step SubmitPassword st in
  errors (passwordForm st') =
    (if String.eqb (currentPassword f) ""
     then {["currentPassword" := "Current PIN is required"]} else ∅)
    ∪ (if String.length (newPassword f) <? 4
       then {["newPassword" := "PIN must be at least 4 characters"]} else ∅)
    ∪ (if String.eqb (confirmPassword f) ""
       then {["confirmPassword" := "Confirm PIN is required"]}
       else if String.eqb (newPassword f) (confirmPassword f) then ∅
            else {["confirmPassword" := "PINs don't match"]})
  /\ values (passwordForm st') = f
  /\ mode st' = mode st.
Proof.
  intros Hshown Hidle Hfail. cbv zeta.
  unfold step, dispatch, when, submittable, updatePasswordButton, handleSubmit,
    zodResolver.
  rewrite Hshown, Hfail. simpl. rewrite Hidle. simpl.
  rewrite password_field_errors. done.
Qed.


(** ** The view surface *)

Lemma js_or_nonempty (a : option string) (d : string) :
  d <> "" -> js_or a d <> "".
Proof.
  intros Hd. destruct a as [s|]; simpl; [|done].
  destruct (String.eqb_spec s ""); done.
Qed.

Lemma userProfile_step (ev : Event) (st : State) :
  is_query_data ev = false -> userProfile (step ev st) = userProfile st.
Proof.
  intros Hev. unfold step.
  destruct ev as [b| | | | | | | | | | | | | | |d|[]|[[]|]]; simpl in *;
    try discriminate;
    unfold when, closeResetEffect, handleSubmit; simpl;
    repeat match goal with
           | |- context [if ?c then _ else _] => destruct c eqn:?; simpl
           | |- context [match ?c with _ => _ end] => destruct c eqn:?; simpl
           end; done.
Qed.

(** X12.  The read-only fields of the view surface are read from the
    signed-in user and from the cached record, never from the forms: they
    change only when the query delivers a record, so a successful profile
    update by itself leaves them as they were until the refetch arrives.  A
    field that is absent or empty shows its placeholder; none is ever
    empty. *)
Theorem view_fields_follow_cache (ev : Event) (st : State) (d : UserProfile) :
  is_query_data ev = false ->
  renderViewFields (step ev st) = renderViewFields st
  /\ shown_fullName (renderViewFields (step (QueryData d) st))
     = js_or (up_fullName d) "-"
  /\ shown_lastLogin (renderViewFields (step (QueryData d) st))
     = js_or (up_lastLogin d) "Current session"
  /\ shown_fullName (renderViewFields st) <> ""
  /\ shown_email (renderViewFields st) <> ""
  /\ shown_mobile (renderViewFields st) <> ""
  /\ shown_lastLogin (renderViewFields st) <> "".
Proof.
  intros Hev. split; [|split; [|split]].
  - unfold renderViewFields. by rewrite user_step, userProfile_step.
  - unfold step, dispatch, syncProfileEffect. simpl.
    case_bool_decide as Hd; simpl; [by rewrite Hd|done].
  - unfold step, dispatch, syncProfileEffect. simpl.
    case_bool_decide as Hd; simpl; [by rewrite Hd|done].
  - repeat split; apply js_or_nonempty; done.
Qed.

(** X13.  A role has a badge exactly when it is one of [admin], [gst] and
    [non_gst]; two roles with the same badge are the same role; a missing
    user and an empty role show none. *)
Theorem role_badges (r : string) :
  (is_Some (getRoleBadge r) <-> r = "admin" \/ r = "gst" \/ r = "non_gst")
  /\ (forall r' b, getRoleBadge r = Some b -> getRoleBadge r' = Some b -> r = r')
  /\ (forall st, user st = None -> roleBadge st = None)
  /\ (forall st u, user st = Some u -> role u = "" -> roleBadge st = None).
Proof.
  split; [|split; [|split]].
  - unfold getRoleBadge.
    destruct (String.eqb_spec r "admin"), (String.eqb_spec r "gst"),
      (String.eqb_spec r "non_gst"); split; eauto;
      try (intros [? Hs]; discriminate); intros [|[|]]; done.
  - intros r' b. unfold getRoleBadge.
    destruct (String.eqb_spec r "admin"), (String.eqb_spec r "gst"),
      (String.eqb_spec r "non_gst"),
      (String.eqb_spec r' "admin"), (String.eqb_spec r' "gst"),
      (String.eqb_spec r' "non_gst"); subst; congruence.
  - intros st Hu. unfold roleBadge. by rewrite Hu.
  - intros st u Hu Hr. unfold roleBadge. by rewrite Hu, Hr.
Qed.

(** ** Closing is the host's *)

(** X14.  The component never closes itself.  A dismissal of the dialog
    only calls [onOpenChange(false)]: until the host passes [open = false]
    the dialog is still open in the same mode with both forms as typed.  The
    Close button calls it once as well and stays in View.  No event but the
    host's changes [open]. *)
Theorem closing_is_the_hosts (st : State) (ev : Event) :
  open st = true ->
  (effects (step DismissDialog st) = effects st ++ [OpenChange false]
   /\ open (step DismissDialog st) = true
   /\ mode (step DismissDialog st) = mode st
   /\ passwordForm (step DismissDialog st) = passwordForm st
   /\ profileForm (step DismissDialog st) = profileForm st)
  /\ (viewMode st = view ->
      effects (step ClickCloseProfile st) = effects st ++ [OpenChange false]
      /\ open (step ClickCloseProfile st) = true
      /\ mode (step ClickCloseProfile st) = View
      /\ passwordForm (step ClickCloseProfile st) = passwordForm st)
  /\ ((forall b, ev <> SetOpen b) -> open (step ev st) = true).
Proof.
  intros Hopen. split; [|split].
  - unfold step, dispatch, when. rewrite Hopen. simpl. done.
  - intros Hview. unfold step, dispatch, when, viewSurface.
    rewrite Hopen, Hview. simpl. done.
  - intros Hev. by rewrite open_step.
Qed.

(** ** The tabs *)

(** X15.  Switching tabs on the edit surface changes the tab and nothing
    else: both forms, the statuses of the mutations and the trace are as
    they were, and switching back gives the state before the switch. *)
Theorem tab_switch_keeps_forms (st : State) (t : TabsValue) :
  editSurface st = true ->
  let st' := step (SelectTab t) st in
  mode st' = match t with profile_tab => EditProfile | password_tab => EditPin end
  /\ profileForm st' = profileForm st
  /\ passwordForm st' = passwordForm st
  /\ updateProfileMutation st' = updateProfileMutation st
  /\ updatePasswordMutation st' = updatePasswordMutation st
  /\ effects st' = effects st
  /\ step (SelectTab (tab st)) st' = st.
Proof.
  intros Hshown. cbv zeta.
  destruct st as [o u vm tb pf pw up m1 m2 fx].
  unfold editSurface in Hshown. simpl in Hshown.
  destruct o, vm, t; try discriminate; simpl in *; done.
Qed.

(** ** What is typed is what is sent *)

Lemma typed_profile_state (st : State) (name mail phone : string) :
  profileTabContent st = true ->
  run [InputFullName name; InputEmail mail; InputMobile phone] st =
    set_profileForm
      (mkForm (mkProfileForm (Some name) (Some mail) (Some phone))
              (errors (profileForm st))) st.
Proof.
  intros Hshown. destruct st as [o u vm tb pf pw up m1 m2 fx].
  unfold profileTabContent, editSurface in Hshown. simpl in Hshown.
  destruct o, vm, tb; try discriminate; reflexivity.
Qed.

Lemma typed_pin_state (st : State) (cur new conf : string) :
  passwordTabContent st = true ->
  run [InputCurrentPassword cur; InputNewPassword new; InputConfirmPassword conf] st =
    set_passwordForm
      (mkForm (mkPasswordForm cur new conf) (errors (passwordForm st))) st.
Proof.
  intros Hshown. destruct st as [o u vm tb pf pw up m1 m2 fx].
  unfold passwordTabContent, editSurface in Hshown. simpl in Hshown.
  destruct o, vm, tb; try discriminate; reflexivity.
Qed.

(** X16.  On the profile tab with no update pending, typing a full name, an
    e-mail that is empty or in the grammar, and a mobile number, then
    saving, sends exactly those three values to the profile resource of the
    current user, whatever the form held before. *)
Theorem typed_profile_is_sent (st : State) (name mail phone : string) :
  profileTabContent st = true ->
  isPending (updateProfileMutation st) = false ->
  mail = "" \/ is_email mail = true ->
  effects (run ([InputFullName name; InputEmail mail; InputMobile phone]
                  ++ [SubmitProfile]) st) =
    effects st ++
      [ Request {| method := "PATCH";
                   url := "/api/users/" +:+ userIdText st +:+ "/profile";
                   body := [ ("fullName", name); ("email", mail);
                             ("mobile", phone) ] |} ].
Proof.
  intros Hshown Hidle Hmail.
  rewrite run_app, typed_profile_state by done.
  change (run [SubmitProfile] ?s) with (step SubmitProfile s).
  rewrite (profile_submit_sends _ name mail phone); done.
Qed.

(** X17.  On the PIN tab with no update pending, typing a current PIN that
    is not empty, a new PIN of four characters or more and the same as
    confirmation, then submitting, sends the current and the new PIN, and
    only them, to the password resource of the current user. *)
Theorem typed_pin_is_sent (st : State) (cur new : string) :
  passwordTabContent st = true ->
  isPending (updatePasswordMutation st) = false ->
  cur <> "" ->
  4 <= String.length new ->
  effects (run ([InputCurrentPassword cur; InputNewPassword new;
                 InputConfirmPassword new] ++ [SubmitPassword]) st) =
    effects st ++
      [ Request {| method := "PATCH";
                   url := "/api/users/" +:+ userIdText st +:+ "/password";
                   body := [("currentPin", cur); ("newPin", new)] |} ].
Proof.
  intros Hshown Hidle Hcur Hnew.
  assert (Hvalid : success (passwordSchema [] (mkPasswordForm cur new new)) = true).
  { unfold passwordSchema, refine, z_object, z_string, success.
    cbn [fst snd foldl omap run_check currentPassword newPassword
         confirmPassword list_omap].
    rewrite String.eqb_refl.
    replace (String.length cur <? 1) with false
      by (destruct cur; [done|reflexivity]).
    replace (String.length new <? 4) with false
      by (symmetry; apply Nat.ltb_ge; exact Hnew).
    replace (String.length new <? 1) with false
      by (symmetry; apply Nat.ltb_ge; lia).
    reflexivity. }
  rewrite run_app, typed_pin_state by done.
  change (run [SubmitPassword] ?s) with (step SubmitPassword s).
  rewrite password_submit_sends; done.
Qed.

End Coverage.

(** * The properties on concrete inputs *)

#[local] Existing Instance sample_grammar.

(** P3 of the specification, an instance of C1. *)
Example updateProfile_success_jane :
  let st' := step (UpdateProfileSettled
                     (fulfilled (mkUserProfile (Some "Jane") (Some "jane@x.com")
                                               (Some "555") None)))
                  (mail_filled "j@x.com") in
  values (profileForm st') =
    {| fullName := Some "Jane"; email := Some "jane@x.com"; mobile := Some "555" |}
  /\ mode st' = View
  /\ effects st' =
       [ Invalidate [Some "/api/users"; Some "7"; Some "profile"];
         Notify {| title := "Profile updated successfully";
                   description := None; variant := None |} ].
Proof. cbv zeta. repeat split. Qed.

(** C2 on a PIN form whose confirmation differs: the submit is refused with
    the mismatch on the confirmation field and no request leaves. *)
Lemma passwordSchema_validation_witness :
  success (passwordSchema [] (mkPasswordForm "1111" "1234" "9999")) = false
  /\ mkIssue ["confirmPassword"] "PINs don't match"
       ∈ snd (passwordSchema [] (mkPasswordForm "1111" "1234" "9999"))
  /\ effects (step SubmitPassword (pin_filled "1111" "1234" "9999")) = [].
Proof.
  destruct (passwordSchema_validation (mkPasswordForm "1111" "1234" "9999"))
    as (_ & Hmismatch & Hsubmit).
  split; [reflexivity|]. split.
  - apply Hmismatch. discriminate.
  - apply (Hsubmit (pin_filled "1111" "1234" "9999")); reflexivity.
Defined.

(** C3 on the race P7 of the specification: the fetch resolves after the
    user typed. *)
Lemma profile_sync_overwrites_witness :
  values (profileForm typing) =
    {| fullName := Some "New"; email := Some ""; mobile := Some "" |}
  /\ values (profileForm
               (step (QueryData (mkUserProfile (Some "Old") None None None)) typing)) =
       {| fullName := Some "Old"; email := Some ""; mobile := Some "" |}.
Proof.
  split; [reflexivity|].
  apply (profile_sync_overwrites typing (mkUserProfile (Some "Old") None None None)).
  discriminate.
Defined.

(** C6 on P6 of the specification: the dialog is closed on a partly filled
    PIN form; a failed PIN update and a profile record arrive while it is
    closed. *)
Lemma close_resets_mode_and_pin_witness :
  mode (pin_filled "12" "3" "") = EditPin
  /\ mode (step (SetOpen false) (pin_filled "12" "3" "")) = View
  /\ values (passwordForm (step (SetOpen false) (pin_filled "12" "3" ""))) =
       {| currentPassword := ""; newPassword := ""; confirmPassword := "" |}
  /\ mode (step (SetOpen true)
             (run [ UpdatePasswordSettled (rejected (mkError "401: wrong PIN"));
                    QueryData (mkUserProfile (Some "Jane") None None None) ]
                  (step (SetOpen false) (pin_filled "12" "3" "")))) = View.
Proof.
  split; [reflexivity|].
  destruct (close_resets_mode_and_pin
              (pin_filled "12" "3" "")
              [ UpdatePasswordSettled (rejected (mkError "401: wrong PIN"));
                QueryData (mkUserProfile (Some "Jane") None None None) ])
    as (Hmode & Hpin & _ & Hreopen & _).
  - reflexivity.
  - rewrite !elem_of_cons, elem_of_nil. intros [|[|[]]]; discriminate.
  - auto.
Defined.

(** C7 on a profile form whose e-mail is outside the grammar. *)
Lemma profileSchema_validation_witness :
  success (profileSchema [] (mkProfileForm (Some "Jane") (Some "jane") (Some ""))) = false
  /\ success (profileSchema [] (mkProfileForm (Some "Jane") (Some "") None)) = true
  /\ effects (step SubmitProfile (mail_filled "jane")) = [].
Proof.
  destruct (profileSchema_validation
              (mkProfileForm (Some "Jane") (Some "jane") (Some "")))
    as (Hfail & Hempty & Hsubmit).
  split; [|split].
  - apply Hfail. exists "jane". repeat split. discriminate.
  - apply (Hempty (Some "Jane") None).
  - apply (Hsubmit (mail_filled "jane")); reflexivity.
Defined.

(** C8 on a valid PIN form. *)
Lemma pin_request_payload_witness :
  effects (step SubmitPassword (pin_filled "1111" "1234" "1234")) =
    [ Request {| method := "PATCH";
                 url := "/api/users/7/password";
                 body := [("currentPin", "1111"); ("newPin", "1234")] |} ]
  /\ updatePasswordMutation (step SubmitPassword (pin_filled "1111" "1234" "1234"))
     = pending.
Proof.
  apply (pin_request_payload (pin_filled "1111" "1234" "1234")); reflexivity.
Defined.

(** C9 on a pending profile update: a second submit changes nothing, and
    the PIN form can still be submitted. *)
Lemma pending_disables_own_submit_witness :
  let saving := step SubmitProfile (mail_filled "jane@x.com") in
  updateProfileMutation saving = pending
  /\ step SubmitProfile saving = saving
  /\ label (saveProfileButton saving) = "Saving..."
  /\ disabled (updatePasswordButton saving) = false.
Proof.
  cbv zeta.
  destruct (pending_disables_own_submit (step SubmitProfile (mail_filled "jane@x.com")))
    as (Hown & _ & _ & _ & _ & Hother).
  split; [reflexivity|].
  destruct Hown as (_ & Hlabel & Hsame); [reflexivity|].
  destruct Hother as (Henabled & _); [reflexivity|].
  auto.
Defined.

(** C10 on unsaved typing: the dialog is dismissed and closed, a PIN update
    fails meanwhile, and the typed name is still there once the dialog is
    open again and back on the edit surface. *)
Lemma close_keeps_profile_form_witness :
  values (profileForm
            (run ([ClickCloseProfile; SetOpen false; SetOpen true]
                    ++ [ UpdatePasswordSettled (rejected (mkError "401: wrong PIN"));
                         ClickEditProfile ])
                 typing)) =
    {| fullName := Some "New"; email := Some ""; mobile := Some "" |}.
Proof.
  destruct (close_keeps_profile_form
              typing false
              [ UpdatePasswordSettled (rejected (mkError "401: wrong PIN"));
                ClickEditProfile ])
    as (_ & _ & _ & _ & Hlater).
  rewrite Hlater; [reflexivity|].
  intros ev. rewrite !elem_of_cons, elem_of_nil.
  by intros [->|[->|[]]].
Defined.

(** X3 on a filled profile form. *)
Lemma profile_request_payload_witness :
  effects (step SubmitProfile (mail_filled "jane@x.com")) =
    [ Request {| method := "PATCH";
                 url := "/api/users/7/profile";
                 body := [ ("fullName", "Jane"); ("email", "jane@x.com");
                           ("mobile", "") ] |} ]
  /\ updateProfileMutation (step SubmitProfile (mail_filled "jane@x.com")) = pending.
Proof.
  destruct (profile_request_payload (mail_filled "jane@x.com") "Jane" "jane@x.com" "")
    as (Hsent & Hpending & _); try reflexivity.
  - right. reflexivity.
  - split; [exact Hsent | exact Hpending].
Defined.

(** X6 on a session that ended on the edit surface (P8 of the
    specification). *)
Lemma closed_dialog_at_rest_witness :
  mode (run [ClickEditProfile; InputFullName "x"; SetOpen false]
            (mounted true (Some jane) None)) = View
  /\ mode (step (SetOpen true)
             (run [ClickEditProfile; InputFullName "x"; SetOpen false]
                  (mounted true (Some jane) None))) = View.
Proof.
  destruct (closed_dialog_at_rest true (Some jane) None
              [ClickEditProfile; InputFullName "x"; SetOpen false])
    as (Hmode & _ & Hreopen); [reflexivity|].
  split; [exact Hmode | exact Hreopen].
Defined.


(** X9 on a PIN form cancelled half way. *)
Lemma cancel_keeps_forms_witness :
  mode (step ClickCancelPassword (pin_filled "1111" "1234" "12")) = View
  /\ values (passwordForm
               (run [ClickEditProfile; SelectTab password_tab]
                    (step ClickCancelPassword (pin_filled "1111" "1234" "12")))) =
       {| currentPassword := "1111"; newPassword := "1234";
          confirmPassword := "12" |}.
Proof.
  destruct (cancel_keeps_forms (pin_filled "1111" "1234" "12") ClickCancelPassword)
    as (Hmode & _ & _ & _ & _ & _ & Hkept).
  - right. split; reflexivity.
  - split; [exact Hmode|]. rewrite Hkept. reflexivity.
Defined.

(** X10 on a PIN form with an empty confirmation: the message of the
    confirmation field is that it is required, not the mismatch. *)
Lemma pin_field_errors_witness :
  errors (passwordForm (step SubmitPassword (pin_filled "" "12" "")))
    !! "confirmPassword" = Some "Confirm PIN is required"
  /\ errors (passwordForm (step SubmitPassword (pin_filled "1111" "1234" "12")))
       !! "confirmPassword" = Some "PINs don't match".
Proof.
  split.
  - destruct (pin_field_errors (pin_filled "" "12" "")) as (Herrors & _);
      [reflexivity..|].
    rewrite Herrors. reflexivity.
  - destruct (pin_field_errors (pin_filled "1111" "1234" "12")) as (Herrors & _);
      [reflexivity..|].
    rewrite Herrors. reflexivity.
Defined.


(** X12 on a successful update over a cached record: the form holds the
    confirmed name, the view surface still shows the cached one. *)
Lemma view_fields_follow_cache_witness :
  shown_fullName
    (renderViewFields
       (step (UpdateProfileSettled
                (fulfilled (mkUserProfile (Some "New") None None None)))
             typing_over_old)) = "Old"
  /\ fullName
       (values (profileForm
          (step (UpdateProfileSettled
                   (fulfilled (mkUserProfile (Some "New") None None None)))
                typing_over_old))) = Some "New".
Proof.
  destruct (view_fields_follow_cache
              (UpdateProfileSettled
                 (fulfilled (mkUserProfile (Some "New") None None None)))
              typing_over_old
              (mkUserProfile (Some "New") None None None))
    as (Hsame & _); [reflexivity|].
  split; [rewrite Hsame|]; reflexivity.
Defined.

(** X14 on a dismissal while the PIN form is filled. *)
Lemma closing_is_the_hosts_witness :
  effects (step DismissDialog (pin_filled "1111" "1234" "1234")) = [OpenChange false]
  /\ mode (step DismissDialog (pin_filled "1111" "1234" "1234")) = EditPin
  /\ values (passwordForm (step DismissDialog (pin_filled "1111" "1234" "1234"))) =
       {| currentPassword := "1111"; newPassword := "1234";
          confirmPassword := "1234" |}.
Proof.
  destruct (closing_is_the_hosts (pin_filled "1111" "1234" "1234") DismissDialog)
    as ((Hasked & _ & Hmode & Hpin & _) & _); [reflexivity|].
  split; [exact Hasked|]. split; [exact Hmode|]. rewrite Hpin. reflexivity.
Defined.

(** X15 on a switch to the PIN tab while a name is typed. *)
Lemma tab_switch_keeps_forms_witness :
  mode (step (SelectTab password_tab) typing) = EditPin
  /\ values (profileForm (step (SelectTab password_tab) typing)) =
       {| fullName := Some "New"; email := Some ""; mobile := Some "" |}
  /\ step (SelectTab profile_tab) (step (SelectTab password_tab) typing) = typing.
Proof.
  destruct (tab_switch_keeps_forms typing password_tab)
    as (Hmode & Hprofile & _ & _ & _ & _ & Hback); [reflexivity|].
  split; [exact Hmode|]. split; [rewrite Hprofile; reflexivity | exact Hback].
Defined.

(** X16 on the edit surface just entered. *)
Lemma typed_profile_is_sent_witness :
  effects (run ([InputFullName "Jane"; InputEmail "jane@x.com"; InputMobile "555"]
                  ++ [SubmitProfile]) editing) =
    [ Request {| method := "PATCH";
                 url := "/api/users/7/profile";
                 body := [ ("fullName", "Jane"); ("email", "jane@x.com");
                           ("mobile", "555") ] |} ].
Proof.
  apply (typed_profile_is_sent editing "Jane" "jane@x.com" "555"); try reflexivity.
  right. reflexivity.
Defined.

(** X17 on the PIN tab just selected. *)
Lemma typed_pin_is_sent_witness :
  effects (run ([InputCurrentPassword "1111"; InputNewPassword "1234";
                 InputConfirmPassword "1234"] ++ [SubmitPassword]) on_pin_tab) =
    [ Request {| method := "PATCH";
                 url := "/api/users/7/password";
                 body := [("currentPin", "1111"); ("newPin", "1234")] |} ].
Proof.
  apply (typed_pin_is_sent on_pin_tab "1111" "1234"); try reflexivity.
  all: first [discriminate | simpl; lia].
Defined.
